(** * Registration input validation (schemas/user.py)

    A shallow embedding of the [UserCreate] schema: its three field
    validators, the regular expressions they hand to Python's [re] module,
    the exceptions they raise and the order in which the framework runs
    them.  Python strings are sequences of Unicode code points; the part of
    the Unicode character database that lies outside ASCII is a parameter
    of the development. *)

From Stdlib Require Import List NArith ZArith String Ascii Bool Arith Lia.
From Stdlib Require Import Permutation.
Import ListNotations.

Set Implicit Arguments.

(** ** Python strings *)

Module PyStr.

(** A [str] is a sequence of code points; [len] counts code points. *)
Definition char := N.
Definition str := list char.

Definition ch (a : ascii) : char := N_of_ascii a.

(** A string literal of the source, all of whose characters are ASCII. *)
Definition lit (s : string) : str := map ch (list_ascii_of_string s).

Definition len (s : str) : nat := List.length s.

Definition NEWLINE : char := 10%N.

End PyStr.

(** ** Character predicates of the interpreter *)

Module Unicode.
Import PyStr.

(** The Unicode character database, consulted for code points from 128 on:
    [str.isalnum] and membership of the category Nd. *)
Record UnicodeData := {
  ucd_isalnum : char -> bool;
  ucd_isdecimal : char -> bool
}.

Definition between (lo hi c : char) : bool := ((lo <=? c) && (c <=? hi))%N.

Definition ascii_upper (c : char) : bool := between (ch "A") (ch "Z") c.
Definition ascii_lower (c : char) : bool := between (ch "a") (ch "z") c.
Definition ascii_digit (c : char) : bool := between (ch "0") (ch "9") c.
Definition ascii_alnum (c : char) : bool :=
  ascii_lower c || ascii_upper c || ascii_digit c.

Section WithData.
Variable ucd : UnicodeData.

Definition Py_UNICODE_ISALNUM (c : char) : bool :=
  if (c <? 128)%N then ascii_alnum c else ucd_isalnum ucd c.

Definition Py_UNICODE_ISDECIMAL (c : char) : bool :=
  if (c <? 128)%N then ascii_digit c else ucd_isdecimal ucd c.

End WithData.

(** A database with no alphanumeric character outside ASCII. *)
Definition ascii_only : UnicodeData :=
  {| ucd_isalnum := fun _ => false; ucd_isdecimal := fun _ => false |}.

(** A fragment of the real database: the letters of Latin-1 and the
    Arabic-Indic digits. *)
Definition sample_ucd : UnicodeData :=
  {| ucd_isalnum := fun c =>
       (between 192 214 c || between 216 246 c || between 248 255 c
        || between 1632 1641 c)%N;
     ucd_isdecimal := fun c => between 1632%N 1641%N c |}.

End Unicode.

(** ** The fragment of [re] used by the schema *)

Module Re.
Import PyStr Unicode.

Inductive category := CATEGORY_DIGIT | CATEGORY_WORD.

Inductive set_item :=
| SetLiteral (c : char)
| SetRange (lo hi : char)
| SetCategory (k : category).

(** Parsed patterns.  [^] and [$] are the anchors without MULTILINE. *)
Inductive regex :=
| AT_BEGINNING
| AT_END
| LITERAL (c : char)
| IN (items : list set_item)
| Plus (r : regex)
| Seq (r1 r2 : regex)
| Group (r : regex).

(** A position in the subject: the offset and the text still to read. *)
Definition cursor := (nat * str)%type.

Definition advance (c : cursor) (tl : str) : cursor := (S (fst c), tl).

(** Repetition: everything reachable by one or more rounds of [f]. *)
Fixpoint plus_iter (f : cursor -> list cursor) (fuel : nat) (cs : list cursor)
  : list cursor :=
  match fuel with
  | O => []
  | S n => let next := flat_map f cs in next ++ plus_iter f n next
  end.

Section WithData.
Variable ucd : UnicodeData.

Definition in_category (k : category) (c : char) : bool :=
  match k with
  | CATEGORY_DIGIT => Py_UNICODE_ISDECIMAL ucd c
  | CATEGORY_WORD => Py_UNICODE_ISALNUM ucd c || (c =? ch "_")%N
  end.

Definition in_item (c : char) (it : set_item) : bool :=
  match it with
  | SetLiteral x => (c =? x)%N
  | SetRange lo hi => between lo hi c
  | SetCategory k => in_category k c
  end.

Definition in_set (items : list set_item) (c : char) : bool :=
  existsb (in_item c) items.

(** All the cursors at which a match of [r] started at [c] can end. *)
Fixpoint exec (r : regex) (c : cursor) : list cursor :=
  match r with
  | AT_BEGINNING => if Nat.eqb (fst c) 0 then [c] else []
  | AT_END =>
      match snd c with
      | [] => [c]
      | [x] => if (x =? NEWLINE)%N then [c] else []
      | _ => []
      end
  | LITERAL x =>
      match snd c with
      | y :: tl => if (y =? x)%N then [advance c tl] else []
      | [] => []
      end
  | IN items =>
      match snd c with
      | y :: tl => if in_set items y then [advance c tl] else []
      | [] => []
      end
  | Plus r' => plus_iter (exec r') (S (len (snd c))) [c]
  | Seq r1 r2 => flat_map (exec r2) (exec r1 c)
  | Group r' => exec r' c
  end.

Definition matches_at (r : regex) (c : cursor) : bool :=
  match exec r c with [] => false | _ :: _ => true end.

(** [re.match]: a match anchored at offset 0.  Only the truth value of the
    result is kept, which is all the validators look at. *)
Definition re_match (r : regex) (s : str) : bool := matches_at r (0, s).

(** [re.search]: a match starting at any offset, the end included. *)
Fixpoint search_from (r : regex) (pos : nat) (s : str) : bool :=
  matches_at r (pos, s)
  || match s with
     | [] => false
     | _ :: tl => search_from r (S pos) tl
     end.

Definition re_search (r : regex) (s : str) : bool := search_from r 0 s.

End WithData.

End Re.

(** ** Exceptions and effects *)

Module Py.
Import PyStr.

Inductive exn :=
| HTTPException (status_code : Z) (detail : string)
| AttributeError (name : string).

Inductive result (A : Type) :=
| Ok (a : A)
| Raise (e : exn).
Arguments Ok {A} a.
Arguments Raise {A} e.

(** The statements a run has sent to the database, oldest first. *)
Inductive column := User_username | User_email.
Definition criterion := (column * str)%type.
Definition db_log := list (list criterion).

(** A computation may raise, and may add to the log of statements. *)
Definition M (A : Type) := db_log -> result A * db_log.

Definition ret {A} (a : A) : M A := fun l => (Ok a, l).
Definition raise {A} (e : exn) : M A := fun l => (Raise e, l).
Definition bind {A B} (m : M A) (k : A -> M B) : M B :=
  fun l => match m l with
           | (Ok a, l') => k a l'
           | (Raise e, l') => (Raise e, l')
           end.

(** [if b: body] as a statement. *)
Definition when (b : bool) (body : M unit) : M unit :=
  if b then body else ret tt.

Definition HTTP_400_BAD_REQUEST : Z := 400.

End Py.

Declare Scope py_scope.
Delimit Scope py_scope with py.
Notation "x <- m ;; k" := (Py.bind m (fun x => k))
  (at level 61, m at next level, right associativity) : py_scope.
Notation "m ;; k" := (Py.bind m (fun _ => k))
  (at level 61, right associativity) : py_scope.

(** ** The object-relational mapper *)

Module Orm.
Import PyStr Py.
Local Open Scope py_scope.

(** Modelled from the spec: the [User] model of models/user.py, which is
    not among the sources; a stored user has a username and an email. *)
Record User := {
  user_id : Z;
  user_username : str;
  user_email : str
}.

Inductive model := UserModel.

Record Session := { rows : list User }.

Record Query := {
  q_session : Session;
  q_criteria : list criterion
}.

Fixpoint str_eqb (a b : str) : bool :=
  match a, b with
  | [], [] => true
  | x :: a', y :: b' => (x =? y)%N && str_eqb a' b'
  | _, _ => false
  end.

Definition column_of (c : column) (u : User) : str :=
  match c with
  | User_username => user_username u
  | User_email => user_email u
  end.

Definition satisfies (u : User) (cr : criterion) : bool :=
  str_eqb (column_of (fst cr) u) (snd cr).

Definition session_query (s : Session) (_ : model) : Query :=
  {| q_session := s; q_criteria := [] |}.

Definition filter (q : Query) (cr : criterion) : Query :=
  {| q_session := q_session q; q_criteria := q_criteria q ++ [cr] |}.

(** [Query.first]: runs the statement and gives the first row, or None. *)
Definition first (q : Query) : M (option User) :=
  fun l =>
    (Ok (find (fun u => forallb (satisfies u) (q_criteria q))
              (rows (q_session q))),
     l ++ [q_criteria q]).

Definition truthy {A} (o : option A) : bool :=
  match o with Some _ => true | None => false end.

End Orm.

(** ** The schema [UserCreate] *)

Module UserCreate.
Import PyStr Unicode Re Py Orm.
Local Open Scope py_scope.
Local Open Scope string_scope.

Record SecretStr := { get_secret_value : str }.

(** An accepted request: the three validated fields. *)
Record t := {
  username : str;
  email : str;
  password : SecretStr
}.

Definition range (lo hi : ascii) : set_item := SetRange (ch lo) (ch hi).
Definition one (a : ascii) : set_item := SetLiteral (ch a).

(** [^\w+$] *)
Definition username_pattern : regex :=
  Seq AT_BEGINNING (Seq (Plus (IN [SetCategory CATEGORY_WORD])) AT_END).

Definition email_local : list set_item :=
  [range "a" "z"; range "A" "Z"; range "0" "9";
   one "_"; one "."; one "+"; one "-"].
Definition email_domain : list set_item :=
  [range "a" "z"; range "A" "Z"; range "0" "9"; one "-"].
Definition email_tld : list set_item :=
  [range "a" "z"; range "A" "Z"; range "0" "9"; one "-"; one "."].

(** [(^[a-zA-Z0-9_.+-]+@[a-zA-Z0-9-]+\.[a-zA-Z0-9-.]+$)] *)
Definition email_pattern : regex :=
  Group
    (Seq AT_BEGINNING
    (Seq (Plus (IN email_local))
    (Seq (LITERAL (ch "@"))
    (Seq (Plus (IN email_domain))
    (Seq (LITERAL (ch "."))
    (Seq (Plus (IN email_tld))
         AT_END)))))).

Definition uppercase_pattern : regex := IN [range "A" "Z"].
Definition lowercase_pattern : regex := IN [range "a" "z"].
Definition digit_pattern : regex := IN [SetCategory CATEGORY_DIGIT].

(** The characters of the class of the last password check; 34 is the
    double quote, which the pattern writes escaped. *)
Definition special_chars : list char :=
  (lit "!@#$%^&*(),.?" ++ [34%N] ++ lit ":{}|<>")%list.
Definition special_pattern : regex := IN (map SetLiteral special_chars).

(** [cls.query]: neither the class nor its bases define [query], so the
    attribute lookup on the class raises before anything is called. *)
Definition cls_query (_ : model) : M Query := raise (AttributeError "query").

Section Validators.
Variable ucd : UnicodeData.
(** The class attribute [db_session] as the endpoint left it. *)
Variable db_session : option Session.

Definition validate_username (username : str) : M str :=
  when (negb ((3 <=? len username) && (len username <=? 30))%nat)
    (raise (HTTPException HTTP_400_BAD_REQUEST
              "Username must be between 3 and 30 characters")) ;;
  when (negb (re_match ucd username_pattern username))
    (raise (HTTPException HTTP_400_BAD_REQUEST
              "Username can only contain letters, numbers, and underscores")) ;;
  when (truthy db_session)
    (existing_user <-
       (q <- cls_query UserModel ;; first (filter q (User_username, username))) ;;
     when (truthy existing_user)
       (raise (HTTPException HTTP_400_BAD_REQUEST
                 "Username or email already registered"))) ;;
  ret username.

Definition validate_email (email : str) : M str :=
  when (negb (re_match ucd email_pattern email))
    (raise (HTTPException 400 "Invalid email address")) ;;
  when (truthy db_session)
    (existing_user <-
       (q <- cls_query UserModel ;; first (filter q (User_username, email))) ;;
     when (truthy existing_user)
       (raise (HTTPException 400 "Email already registered"))) ;;
  ret email.

Definition validate_password (password : SecretStr) : M SecretStr :=
  let password_str := get_secret_value password in
  when (len password_str <? 8)%nat
    (raise (HTTPException 400 "Password must be at least 8 characters long")) ;;
  when (negb (re_search ucd uppercase_pattern password_str))
    (raise (HTTPException 400
              "Password must contain at least one uppercase letter")) ;;
  when (negb (re_search ucd lowercase_pattern password_str))
    (raise (HTTPException 400
              "Password must contain at least one lowercase letter")) ;;
  when (negb (re_search ucd digit_pattern password_str))
    (raise (HTTPException 400 "Password must contain at least one digit")) ;;
  when (negb (re_search ucd special_pattern password_str))
    (raise (HTTPException 400
              "Password must contain at least one special character")) ;;
  ret password.

(** Building the model: the framework runs the field validators in the
    order of declaration, and an [HTTPException] or [AttributeError] is not
    one of the errors it collects, so the first one raised leaves the
    constructor. *)
Definition validate (u e : str) (p : SecretStr) : M t :=
  u' <- validate_username u ;;
  e' <- validate_email e ;;
  p' <- validate_password p ;;
  ret {| username := u'; email := e'; password := p' |}.

End Validators.

(** The outcome of a run started with an empty log. *)
Definition run {A} (m : M A) : result A := fst (m []).

End UserCreate.

(** ** The vocabulary of the specification *)

Module Spec.
Import PyStr Unicode Re Py Orm UserCreate.
Local Open Scope string_scope.

Inductive field := Username | Email | Password.

(** The sub-rules, one per bullet of the rule set. *)
Inductive rule :=
| UsernameLength | UsernameCharset | UsernameDuplicate
| EmailFormat | EmailDuplicate
| PasswordTooShort | PasswordNeedsUppercase | PasswordNeedsLowercase
| PasswordNeedsDigit | PasswordNeedsSpecial.

Definition all_rules : list rule :=
  [UsernameLength; UsernameCharset; UsernameDuplicate;
   EmailFormat; EmailDuplicate;
   PasswordTooShort; PasswordNeedsUppercase; PasswordNeedsLowercase;
   PasswordNeedsDigit; PasswordNeedsSpecial].

Definition rule_field (r : rule) : field :=
  match r with
  | UsernameLength | UsernameCharset | UsernameDuplicate => Username
  | EmailFormat | EmailDuplicate => Email
  | _ => Password
  end.

Definition rule_reason (r : rule) : string :=
  match r with
  | UsernameLength => "length"
  | UsernameCharset => "charset"
  | UsernameDuplicate => "duplicate"
  | EmailFormat => "format"
  | EmailDuplicate => "duplicate"
  | PasswordTooShort => "too_short"
  | PasswordNeedsUppercase => "needs_uppercase"
  | PasswordNeedsLowercase => "needs_lowercase"
  | PasswordNeedsDigit => "needs_digit"
  | PasswordNeedsSpecial => "needs_special"
  end.

(** The exception the source raises where a sub-rule fails. *)
Definition rule_error (r : rule) : exn :=
  match r with
  | UsernameLength =>
      HTTPException 400 "Username must be between 3 and 30 characters"
  | UsernameCharset =>
      HTTPException 400
        "Username can only contain letters, numbers, and underscores"
  | UsernameDuplicate =>
      HTTPException 400 "Username or email already registered"
  | EmailFormat => HTTPException 400 "Invalid email address"
  | EmailDuplicate => HTTPException 400 "Email already registered"
  | PasswordTooShort =>
      HTTPException 400 "Password must be at least 8 characters long"
  | PasswordNeedsUppercase =>
      HTTPException 400 "Password must contain at least one uppercase letter"
  | PasswordNeedsLowercase =>
      HTTPException 400 "Password must contain at least one lowercase letter"
  | PasswordNeedsDigit =>
      HTTPException 400 "Password must contain at least one digit"
  | PasswordNeedsSpecial =>
      HTTPException 400 "Password must contain at least one special character"
  end.

(** "ASCII letter, digit, or underscore". *)
Definition ascii_word (c : char) : bool := ascii_alnum c || (c =? ch "_")%N.

(** What [\w] accepts: a word character of the interpreter. *)
Definition word (ucd : UnicodeData) (c : char) : bool :=
  in_category ucd CATEGORY_WORD c.

(** What [\d] accepts: a decimal digit of the interpreter. *)
Definition digit (ucd : UnicodeData) (c : char) : bool :=
  in_category ucd CATEGORY_DIGIT c.

Definition special (c : char) : bool := existsb (N.eqb c) special_chars.

Definition has (P : char -> bool) (s : str) : Prop :=
  exists c, In c s /\ P c = true.

(** The shape the email rule describes: local part, [@], domain, a dot and
    the rest, each part non-empty and over its own alphabet. *)
Definition email_shape (s : str) : Prop :=
  exists a b c,
    a <> [] /\ b <> [] /\ c <> [] /\
    forallb (in_set ascii_only email_local) a = true /\
    forallb (in_set ascii_only email_domain) b = true /\
    forallb (in_set ascii_only email_tld) c = true /\
    s = (a ++ ch "@" :: b ++ ch "." :: c)%list.

(** The password rules in the order of the rule set: the first that fails. *)
Definition failing_rule (ucd : UnicodeData) (s : str) : option rule :=
  if (len s <? 8)%nat then Some PasswordTooShort
  else if negb (existsb ascii_upper s) then Some PasswordNeedsUppercase
  else if negb (existsb ascii_lower s) then Some PasswordNeedsLowercase
  else if negb (existsb (digit ucd) s) then Some PasswordNeedsDigit
  else if negb (existsb special s) then Some PasswordNeedsSpecial
  else None.

(** A session whose store holds the user john_doe. *)
Definition john : User :=
  {| user_id := 1; user_username := lit "john_doe";
     user_email := lit "john@example.com" |}.
Definition session_with_john : Session := {| rows := [john] |}.

Definition secret (s : string) : SecretStr := {| get_secret_value := lit s |}.

(** A character of the ASCII range. *)
Definition is_ascii (c : char) : bool := (c <? 128)%N.

End Spec.

(** * Properties *)

Import PyStr Unicode Re Py Orm UserCreate Spec.
Local Open Scope string_scope.
Local Open Scope list_scope.

(** ** The matcher *)

Section Matcher.
Variable ucd : UnicodeData.

Lemma plus_iter_nil (f : cursor -> list cursor) n : plus_iter f n [] = [].
Proof. induction n as [|n IH]; simpl; auto. Qed.

Lemma exec_IN items p s :
  exec ucd (IN items) (p, s) =
  match s with
  | y :: tl => if in_set ucd items y then [(S p, tl)] else []
  | [] => []
  end.
Proof. reflexivity. Qed.

(** Rounds of a one-character class read a non-empty run of the class. *)
Lemma plus_iter_IN items n : forall p s c',
  In c' (plus_iter (exec ucd (IN items)) n [(p, s)]) <->
  exists w tl, w <> [] /\ (List.length w <= n)%nat /\
    forallb (in_set ucd items) w = true /\
    s = w ++ tl /\ c' = ((p + List.length w)%nat, tl).
Proof.
  induction n as [|n IH]; intros p s c'.
  - simpl. split; [tauto|].
    intros (w & tl & Hne & Hle & _). destruct w; [congruence|simpl in Hle; lia].
  - cbn [plus_iter flat_map]. rewrite app_nil_r, exec_IN.
    destruct s as [|y tl0].
    + simpl. rewrite plus_iter_nil. split; [intros []|].
      intros (w & tl & Hne & _ & _ & Hs & _).
      destruct w; [congruence|discriminate].
    + destruct (in_set ucd items y) eqn:Hy.
      * cbn [app]. cbn [In]. rewrite IH. split.
        -- intros [<- | (w & tl & Hne & Hle & Hall & -> & ->)].
           ++ exists [y], tl0. simpl. rewrite Hy.
              repeat split; try lia; try congruence. f_equal; lia.
           ++ exists (y :: w), tl. simpl. rewrite Hy, Hall.
              repeat split; try lia; try congruence. f_equal; lia.
        -- intros (w & tl & Hne & Hle & Hall & Hs & ->).
           destruct w as [|x w]; [congruence|].
           simpl in Hs, Hall, Hle. injection Hs as <- ->.
           apply andb_prop in Hall as [_ Hall].
           destruct w as [|x' w'].
           ++ left. simpl. f_equal. lia.
           ++ right. exists (x' :: w'), tl.
              repeat split; try congruence; try (simpl in *; lia); auto.
              simpl. f_equal. lia.
      * simpl. rewrite plus_iter_nil. split; [intros []|].
        intros (w & tl & Hne & _ & Hall & Hs & _).
        destruct w as [|x w]; [congruence|].
        simpl in Hs, Hall. injection Hs as <- _. rewrite Hy in Hall.
        discriminate.
Qed.

Lemma exec_Plus_IN items p s c' :
  In c' (exec ucd (Plus (IN items)) (p, s)) <->
  exists w tl, w <> [] /\ forallb (in_set ucd items) w = true /\
    s = w ++ tl /\ c' = ((p + List.length w)%nat, tl).
Proof.
  change (exec ucd (Plus (IN items)) (p, s))
    with (plus_iter (exec ucd (IN items)) (S (len s)) [(p, s)]).
  rewrite plus_iter_IN. split.
  - intros (w & tl & ? & ? & ? & ? & ?). exists w, tl. auto.
  - intros (w & tl & ? & ? & Hs & ?). exists w, tl.
    repeat split; auto. unfold len. rewrite Hs, length_app. lia.
Qed.

Lemma exec_Seq r1 r2 c c' :
  In c' (exec ucd (Seq r1 r2) c) <->
  exists m, In m (exec ucd r1 c) /\ In c' (exec ucd r2 m).
Proof. cbn [exec]. apply in_flat_map. Qed.

Lemma exec_LITERAL x p s c' :
  In c' (exec ucd (LITERAL x) (p, s)) <->
  exists tl, s = x :: tl /\ c' = (S p, tl).
Proof.
  cbn [exec snd]. destruct s as [|y tl].
  - simpl. split; [tauto|]. intros (tl & Hs & _). discriminate.
  - destruct (N.eqb_spec y x) as [->|Hne]; simpl.
    + split.
      * intros [<-|[]]. exists tl. auto.
      * intros (tl' & Hs & ->). injection Hs as ->. auto.
    + split; [tauto|]. intros (tl' & Hs & _). congruence.
Qed.

Lemma exec_AT_END p s c' :
  In c' (exec ucd AT_END (p, s)) <->
  c' = (p, s) /\ (s = [] \/ s = [NEWLINE]).
Proof.
  cbn [exec snd]. destruct s as [|x [|y tl]].
  - simpl. intuition congruence.
  - destruct (N.eqb_spec x NEWLINE) as [->|Hne]; simpl.
    + intuition congruence.
    + split; [tauto|]. intros [_ [H|H]]; congruence.
  - simpl. split; [tauto|]. intros [_ [H|H]]; discriminate.
Qed.

Lemma exec_AT_BEGINNING p s c' :
  In c' (exec ucd AT_BEGINNING (p, s)) <-> c' = (p, s) /\ p = 0%nat.
Proof.
  cbn [exec fst]. destruct p; simpl; intuition congruence.
Qed.

Lemma matches_at_In r c :
  matches_at ucd r c = true <-> exists c', In c' (exec ucd r c).
Proof.
  unfold matches_at. destruct (exec ucd r c) as [|x l]; split.
  - discriminate.
  - intros (c' & []).
  - exists x. now left.
  - reflexivity.
Qed.

End Matcher.

(** ** The patterns of the schema *)

Section Patterns.
Variable ucd : UnicodeData.

Lemma forallb_ext' (f g : char -> bool) (l : str) :
  (forall c, f c = g c) -> forallb f l = forallb g l.
Proof. intros H. induction l as [|x l IH]; simpl; [|rewrite H, IH]; auto. Qed.

Lemma existsb_ext' (f g : char -> bool) (l : str) :
  (forall c, f c = g c) -> existsb f l = existsb g l.
Proof. intros H. induction l as [|x l IH]; simpl; [|rewrite H, IH]; auto. Qed.

Lemma in_set_category k c :
  in_set ucd [SetCategory k] c = in_category ucd k c.
Proof. unfold in_set. simpl. apply orb_false_r. Qed.

Lemma in_set_literals l c :
  in_set ucd (map SetLiteral l) c = existsb (N.eqb c) l.
Proof. unfold in_set. induction l as [|x l IH]; simpl; [|rewrite IH]; auto. Qed.

Lemma has_existsb P s : existsb P s = true <-> has P s.
Proof. unfold has. apply existsb_exists. Qed.

(** [^\w+$] accepts the non-empty runs of word characters and the same
    followed by one newline. *)
Lemma re_match_username s :
  re_match ucd username_pattern s = true <->
  exists w, w <> [] /\ forallb (word ucd) w = true /\
            (s = w \/ s = w ++ [NEWLINE]).
Proof.
  unfold re_match, username_pattern. rewrite matches_at_In. split.
  - intros (c' & H).
    apply exec_Seq in H as (m1 & H1 & H).
    apply exec_AT_BEGINNING in H1 as [-> _].
    apply exec_Seq in H as (m2 & H2 & H).
    apply exec_Plus_IN in H2 as (w & tl & Hne & Hall & -> & ->).
    apply exec_AT_END in H as [_ Htl].
    exists w. split; [auto|]. split.
    + rewrite <- Hall. apply forallb_ext'. intros c.
      symmetry. apply in_set_category.
    + destruct Htl as [-> | ->]; [left; apply app_nil_r | right; reflexivity].
  - intros (w & Hne & Hall & Hs).
    assert (Hs' : exists tl, s = w ++ tl /\ (tl = [] \/ tl = [NEWLINE])).
    { destruct Hs as [-> | ->]; [exists [] | exists [NEWLINE]];
        rewrite ?app_nil_r; auto. }
    destruct Hs' as (tl & -> & Htl).
    exists ((0 + List.length w)%nat, tl).
    apply exec_Seq. exists (0%nat, w ++ tl). split.
    { apply exec_AT_BEGINNING. auto. }
    apply exec_Seq. exists ((0 + List.length w)%nat, tl). split.
    { apply exec_Plus_IN. exists w, tl. repeat split; auto.
      rewrite <- Hall. apply forallb_ext'. intros c. apply in_set_category. }
    apply exec_AT_END. auto.
Qed.

(** The email pattern accepts the strings local@domain.rest, each part
    non-empty over its class, and the same followed by one newline. *)
Lemma re_match_email s :
  re_match ucd email_pattern s = true <->
  exists a b c,
    a <> [] /\ b <> [] /\ c <> [] /\
    forallb (in_set ascii_only email_local) a = true /\
    forallb (in_set ascii_only email_domain) b = true /\
    forallb (in_set ascii_only email_tld) c = true /\
    (s = a ++ ch "@" :: b ++ ch "." :: c \/
     s = (a ++ ch "@" :: b ++ ch "." :: c) ++ [NEWLINE]).
Proof.
  unfold re_match, email_pattern. rewrite matches_at_In.
  change (exec ucd (Group ?r) ?c) with (exec ucd r c).
  split.
  - intros (c' & H).
    apply exec_Seq in H as (m1 & H1 & H).
    apply exec_AT_BEGINNING in H1 as [-> _].
    apply exec_Seq in H as (m2 & H2 & H).
    apply exec_Plus_IN in H2 as (a & t1 & Ha & Halla & -> & ->).
    apply exec_Seq in H as (m3 & H3 & H).
    apply exec_LITERAL in H3 as (t2 & -> & ->).
    apply exec_Seq in H as (m4 & H4 & H).
    apply exec_Plus_IN in H4 as (b & t3 & Hb & Hallb & -> & ->).
    apply exec_Seq in H as (m5 & H5 & H).
    apply exec_LITERAL in H5 as (t4 & -> & ->).
    apply exec_Seq in H as (m6 & H6 & H).
    apply exec_Plus_IN in H6 as (c & t5 & Hc & Hallc & -> & ->).
    apply exec_AT_END in H as [_ Htl].
    exists a, b, c. repeat split; auto.
    destruct Htl as [-> | ->].
    + left. rewrite app_nil_r. reflexivity.
    + right. rewrite <- !app_assoc. simpl. rewrite <- !app_assoc. reflexivity.
  - intros (a & b & c & Ha & Hb & Hc & Halla & Hallb & Hallc & Hs).
    assert (Hs' : exists tl, s = a ++ ch "@" :: b ++ ch "." :: c ++ tl
                             /\ (tl = [] \/ tl = [NEWLINE])).
    { destruct Hs as [-> | ->]; [exists [] | exists [NEWLINE]];
        rewrite ?app_nil_r; auto.
      split; auto. rewrite <- !app_assoc. simpl. rewrite <- !app_assoc.
      reflexivity. }
    destruct Hs' as (tl & -> & Htl).
    eexists.
    apply exec_Seq. eexists. split.
    { apply exec_AT_BEGINNING. split; reflexivity. }
    apply exec_Seq. eexists. split.
    { apply exec_Plus_IN. exists a. eexists. repeat split; eauto. }
    apply exec_Seq. eexists. split.
    { apply exec_LITERAL. eexists. split; reflexivity. }
    apply exec_Seq. eexists. split.
    { apply exec_Plus_IN. exists b. eexists. repeat split; eauto. }
    apply exec_Seq. eexists. split.
    { apply exec_LITERAL. eexists. split; reflexivity. }
    apply exec_Seq. eexists. split.
    { apply exec_Plus_IN. exists c. eexists. repeat split; eauto. }
    apply exec_AT_END. split; [reflexivity | exact Htl].
Qed.

(** Searching for one character of a class finds it anywhere. *)
Lemma search_from_IN items s :
  forall pos, search_from ucd (IN items) pos s = existsb (in_set ucd items) s.
Proof.
  induction s as [|y tl IH]; intros pos.
  - reflexivity.
  - cbn [search_from existsb]. rewrite IH. f_equal.
    unfold matches_at. rewrite exec_IN.
    destruct (in_set ucd items y); reflexivity.
Qed.

Lemma re_search_uppercase s :
  re_search ucd uppercase_pattern s = existsb ascii_upper s.
Proof.
  unfold re_search, uppercase_pattern. rewrite search_from_IN.
  apply existsb_ext'. intros c. unfold in_set. simpl. apply orb_false_r.
Qed.

Lemma re_search_lowercase s :
  re_search ucd lowercase_pattern s = existsb ascii_lower s.
Proof.
  unfold re_search, lowercase_pattern. rewrite search_from_IN.
  apply existsb_ext'. intros c. unfold in_set. simpl. apply orb_false_r.
Qed.

Lemma re_search_digit s :
  re_search ucd digit_pattern s = existsb (digit ucd) s.
Proof.
  unfold re_search, digit_pattern. rewrite search_from_IN.
  apply existsb_ext'. intros c. apply in_set_category.
Qed.

Lemma re_search_special s :
  re_search ucd special_pattern s = existsb special s.
Proof.
  unfold re_search, special_pattern. rewrite search_from_IN.
  apply existsb_ext'. intros c. apply in_set_literals.
Qed.

End Patterns.

(** ** The validators, branch by branch *)

Section Equations.
Variable ucd : UnicodeData.
Variable db_session : option Session.

Lemma validate_username_eq u l :
  validate_username ucd db_session u l =
  if negb ((3 <=? len u) && (len u <=? 30))%nat
  then (Raise (rule_error UsernameLength), l)
  else if negb (re_match ucd username_pattern u)
  then (Raise (rule_error UsernameCharset), l)
  else if truthy db_session
  then (Raise (AttributeError "query"), l)
  else (Ok u, l).
Proof.
  unfold validate_username, when, bind, raise, ret, cls_query.
  destruct (negb _); [reflexivity|].
  destruct (negb _); [reflexivity|].
  destruct (truthy db_session); reflexivity.
Qed.

Lemma validate_email_eq e l :
  validate_email ucd db_session e l =
  if negb (re_match ucd email_pattern e)
  then (Raise (rule_error EmailFormat), l)
  else if truthy db_session
  then (Raise (AttributeError "query"), l)
  else (Ok e, l).
Proof.
  unfold validate_email, when, bind, raise, ret, cls_query.
  destruct (negb _); [reflexivity|].
  destruct (truthy db_session); reflexivity.
Qed.

Lemma validate_password_eq p l :
  validate_password ucd p l =
  (match failing_rule ucd (get_secret_value p) with
   | Some r => Raise (rule_error r)
   | None => Ok p
   end, l).
Proof.
  unfold validate_password, failing_rule, when, bind, raise, ret.
  rewrite re_search_uppercase, re_search_lowercase, re_search_digit,
    re_search_special.
  destruct (len _ <? 8)%nat; [reflexivity|].
  destruct (negb (existsb ascii_upper _)); [reflexivity|].
  destruct (negb (existsb ascii_lower _)); [reflexivity|].
  destruct (negb (existsb (digit ucd) _)); [reflexivity|].
  destruct (negb (existsb special _)); reflexivity.
Qed.

Lemma validate_eq u e p l :
  validate ucd db_session u e p l =
  match validate_username ucd db_session u l with
  | (Raise x, l1) => (Raise x, l1)
  | (Ok u', l1) =>
      match validate_email ucd db_session e l1 with
      | (Raise x, l2) => (Raise x, l2)
      | (Ok e', l2) =>
          match validate_password ucd p l2 with
          | (Raise x, l3) => (Raise x, l3)
          | (Ok p', l3) =>
              (Ok {| username := u'; email := e'; password := p' |}, l3)
          end
      end
  end.
Proof.
  unfold validate, bind, ret.
  destruct (validate_username _ _ _ _) as [[u'|x] l1]; [|reflexivity].
  destruct (validate_email _ _ _ _) as [[e'|x] l2]; [|reflexivity].
  destruct (validate_password _ _ _) as [[p'|x] l3]; reflexivity.
Qed.

(** No validator ever sends a statement to the database. *)
Lemma validate_username_log u l : snd (validate_username ucd db_session u l) = l.
Proof.
  rewrite validate_username_eq.
  repeat match goal with |- context [if ?b then _ else _] => destruct b end;
    reflexivity.
Qed.

Lemma validate_email_log e l : snd (validate_email ucd db_session e l) = l.
Proof.
  rewrite validate_email_eq.
  repeat match goal with |- context [if ?b then _ else _] => destruct b end;
    reflexivity.
Qed.

Lemma validate_password_log p l : snd (validate_password ucd p l) = l.
Proof. rewrite validate_password_eq. reflexivity. Qed.

Lemma validate_log u e p l : snd (validate ucd db_session u e p l) = l.
Proof.
  rewrite validate_eq.
  pose proof (validate_username_log u l) as H1.
  destruct (validate_username _ _ _ _) as [[u'|x] l1]; simpl in H1; subst l1;
    [|reflexivity].
  pose proof (validate_email_log e l) as H2.
  destruct (validate_email _ _ _ _) as [[e'|x] l2]; simpl in H2; subst l2;
    [|reflexivity].
  pose proof (validate_password_log p l) as H3.
  destruct (validate_password _ _ _) as [[p'|x] l3]; simpl in H3; subst l3;
    reflexivity.
Qed.

End Equations.

(** The length test in arithmetic. *)
Lemma length_check_spec (u : str) :
  negb ((3 <=? len u) && (len u <=? 30))%nat = true <->
  (len u < 3 \/ 30 < len u)%nat.
Proof.
  destruct (Nat.leb_spec 3 (len u)), (Nat.leb_spec (len u) 30); simpl;
    split; intros; try discriminate; try lia; auto.
Qed.

(** ** Username length *)

(** C8: whatever the session and the characters, the username validator
    raises the length error exactly when the username has fewer than 3 or
    more than 30 characters; the test comes before every other, and the two
    usernames of the rule set fail it. *)
Theorem C8_username_length_first :
  forall ucd db_session u l,
    (validate_username ucd db_session u l
       = (Raise (HTTPException 400
                   "Username must be between 3 and 30 characters"), l)
     <-> (len u < 3 \/ 30 < len u)%nat)
    /\ run (validate_username ucd db_session (lit "ab"))
       = Raise (rule_error UsernameLength)
    /\ run (validate_username ucd db_session
              (lit "this_is_a_very_long_username_over_30_chars"))
       = Raise (rule_error UsernameLength).
Proof.
  intros ucd db u l. split; [|split].
  - rewrite validate_username_eq. rewrite <- length_check_spec.
    destruct (negb ((3 <=? len u)%nat && _)).
    + split; reflexivity.
    + split; [|discriminate].
      destruct (negb (re_match _ _ _)); [discriminate|].
      destruct (truthy db); discriminate.
  - unfold run. rewrite validate_username_eq. reflexivity.
  - unfold run. rewrite validate_username_eq. reflexivity.
Qed.

(** ** Password rules *)

Lemma not_has_existsb P s : existsb P s = false <-> ~ has P s.
Proof.
  rewrite <- has_existsb. destruct (existsb P s); split; intros;
    congruence.
Qed.

(** The first failing password rule, in words. *)
Lemma failing_rule_spec ucd s :
  (failing_rule ucd s = Some PasswordTooShort <-> (len s < 8)%nat)
  /\ (failing_rule ucd s = Some PasswordNeedsUppercase <->
      (8 <= len s)%nat /\ ~ has ascii_upper s)
  /\ (failing_rule ucd s = Some PasswordNeedsLowercase <->
      (8 <= len s)%nat /\ has ascii_upper s /\ ~ has ascii_lower s)
  /\ (failing_rule ucd s = Some PasswordNeedsDigit <->
      (8 <= len s)%nat /\ has ascii_upper s /\ has ascii_lower s
      /\ ~ has (digit ucd) s)
  /\ (failing_rule ucd s = Some PasswordNeedsSpecial <->
      (8 <= len s)%nat /\ has ascii_upper s /\ has ascii_lower s
      /\ has (digit ucd) s /\ ~ has special s)
  /\ (failing_rule ucd s = None <->
      (8 <= len s)%nat /\ has ascii_upper s /\ has ascii_lower s
      /\ has (digit ucd) s /\ has special s).
Proof.
  unfold failing_rule. rewrite <- !not_has_existsb, <- !has_existsb.
  destruct (Nat.ltb_spec (len s) 8);
    destruct (existsb ascii_upper s), (existsb ascii_lower s),
      (existsb (digit ucd) s), (existsb special s); simpl;
    repeat split; intros; try discriminate; try lia;
    repeat match goal with H : _ /\ _ |- _ => destruct H end;
    try discriminate; try lia; auto.
Qed.

(** Distinct sub-rules raise distinct exceptions. *)
Lemma rule_error_inj r1 r2 : rule_error r1 = rule_error r2 -> r1 = r2.
Proof. destruct r1, r2; intros H; try reflexivity; discriminate H. Qed.

Lemma failing_rule_field ucd s r :
  failing_rule ucd s = Some r -> rule_field r = Password.
Proof.
  unfold failing_rule.
  repeat match goal with |- context [if ?b then _ else _] => destruct b end;
    intros H; inversion H; reflexivity.
Qed.

Lemma password_outcome ucd p l r :
  validate_password ucd p l = (Raise (rule_error r), l) <->
  failing_rule ucd (get_secret_value p) = Some r.
Proof.
  rewrite validate_password_eq.
  destruct (failing_rule ucd _) as [r'|]; split; intros H.
  - injection H as H. apply rule_error_inj in H. congruence.
  - injection H as ->. reflexivity.
  - discriminate.
  - discriminate.
Qed.

(** C5: the password validator applies five rules in order and raises for
    the first that fails: shorter than 8 characters; no letter of A-Z; no
    letter of a-z; no decimal digit; none of the twenty special characters;
    otherwise it returns the password.  The three passwords of the rule set
    come out as stated. *)
Theorem C5_password_rules_in_order :
  forall ucd p l,
    let s := get_secret_value p in
    let out := validate_password ucd p l in
    (out = (Raise (HTTPException 400
                     "Password must be at least 8 characters long"), l)
     <-> (len s < 8)%nat)
    /\ (out = (Raise (HTTPException 400
                 "Password must contain at least one uppercase letter"), l)
        <-> (8 <= len s)%nat /\ ~ has ascii_upper s)
    /\ (out = (Raise (HTTPException 400
                 "Password must contain at least one lowercase letter"), l)
        <-> (8 <= len s)%nat /\ has ascii_upper s /\ ~ has ascii_lower s)
    /\ (out = (Raise (HTTPException 400
                 "Password must contain at least one digit"), l)
        <-> (8 <= len s)%nat /\ has ascii_upper s /\ has ascii_lower s
            /\ ~ has (digit ucd) s)
    /\ (out = (Raise (HTTPException 400
                 "Password must contain at least one special character"), l)
        <-> (8 <= len s)%nat /\ has ascii_upper s /\ has ascii_lower s
            /\ has (digit ucd) s /\ ~ has special s)
    /\ (out = (Ok p, l)
        <-> (8 <= len s)%nat /\ has ascii_upper s /\ has ascii_lower s
            /\ has (digit ucd) s /\ has special s)
    /\ special_chars
       = [33; 64; 35; 36; 37; 94; 38; 42; 40; 41; 44; 46; 63; 34; 58; 123;
          125; 124; 60; 62]%N
    /\ run (validate_password ucd (secret "short1!"))
       = Raise (rule_error PasswordTooShort)
    /\ run (validate_password ucd (secret "alllowercase1!"))
       = Raise (rule_error PasswordNeedsUppercase)
    /\ run (validate_password ucd (secret "SecurePass1!"))
       = Ok (secret "SecurePass1!").
Proof.
  intros ucd p l s out.
  destruct (failing_rule_spec ucd s) as (H1 & H2 & H3 & H4 & H5 & H6).
  subst out s.
  rewrite <- H1, <- H2, <- H3, <- H4, <- H5, <- H6.
  repeat split;
    try (unfold run; rewrite validate_password_eq; reflexivity);
    try (intros H; apply (password_outcome ucd p l) in H; exact H);
    try (intros H; apply (password_outcome ucd p l); exact H).
  - rewrite validate_password_eq.
    destruct (failing_rule ucd _); [discriminate|reflexivity].
  - rewrite validate_password_eq. intros ->. reflexivity.
Qed.

(** ** Username characters *)

Lemma ascii_word_is_word ucd c : ascii_word c = true -> word ucd c = true.
Proof.
  unfold ascii_word, word, in_category, Py_UNICODE_ISALNUM.
  destruct (c =? ch "_")%N; [intros _; apply orb_true_r|].
  rewrite !orb_false_r. intros H.
  destruct (N.ltb_spec c 128) as [_|Hge]; [exact H|].
  unfold ascii_alnum, ascii_lower, ascii_upper, ascii_digit, between, ch in H.
  simpl in H.
  apply orb_prop in H as [H|H]; [apply orb_prop in H as [H|H]|];
    apply andb_prop in H as [_ H]; apply N.leb_le in H; lia.
Qed.

(** X1: with no session attached, usernames of 3 to 30 ASCII letters,
    digits and underscores pass. *)
Lemma ascii_username_accepted ucd u l :
  (3 <= len u <= 30)%nat -> forallb ascii_word u = true ->
  validate_username ucd None u l = (Ok u, l).
Proof.
  intros Hlen Hall. rewrite validate_username_eq.
  destruct (negb ((3 <=? len u)%nat && _)) eqn:E.
  { apply length_check_spec in E. lia. }
  assert (Hm : re_match ucd username_pattern u = true).
  { apply re_match_username. exists u. split; [|split; [|now left]].
    - intros ->. simpl in Hlen. lia.
    - apply forallb_forall. intros c Hc.
      apply ascii_word_is_word.
      apply (proj1 (forallb_forall ascii_word u) Hall c Hc). }
  rewrite Hm. reflexivity.
Qed.

(** C3: the charset test of the username is not the test "every character
    is an ASCII letter, digit or underscore".  The username abc followed by
    a newline has length 4 and a character outside that alphabet, and the
    validator returns it; with a Unicode database that knows the letter
    e-acute, so is a username with that letter.  The test accepts the
    non-empty runs of word characters of the interpreter, with or without
    one final newline. *)
Theorem C3_username_charset_accepts_trailing_newline :
  forall ucd,
    let u := lit "abc" ++ [NEWLINE] in
    (3 <= len u <= 30)%nat
    /\ forallb ascii_word u = false
    /\ run (validate_username ucd None u) = Ok u
    /\ (let v := lit "caf" ++ [233%N] in
        forallb ascii_word v = false
        /\ run (validate_username sample_ucd None v) = Ok v)
    /\ run (validate_username ucd None (lit "john doe"))
       = Raise (rule_error UsernameCharset)
    /\ (forall s, re_match ucd username_pattern s = true <->
          exists w, w <> [] /\ forallb (word ucd) w = true /\
                    (s = w \/ s = w ++ [NEWLINE])).
Proof.
  intros ucd u. subst u. repeat split;
    try (simpl; lia);
    try (unfold run; rewrite validate_username_eq; reflexivity);
    try (apply re_match_username).
Qed.

(** ** Email format *)

Lemma email_shape_no_newline s : ~ email_shape (s ++ [NEWLINE]).
Proof.
  intros (a & b & c & _ & _ & Hc & _ & _ & Hallc & Hs).
  destruct (exists_last Hc) as (c' & z & ->).
  replace (a ++ ch "@" :: b ++ ch "." :: c' ++ [z])
    with ((a ++ ch "@" :: b ++ ch "." :: c') ++ [z]) in Hs.
  2:{ rewrite <- !app_assoc. simpl. rewrite <- !app_assoc. reflexivity. }
  apply app_inj_tail in Hs as [_ <-].
  rewrite forallb_app in Hallc. apply andb_prop in Hallc as [_ H].
  discriminate H.
Qed.

(** C7: the format test of the email is not the test "local part, [@],
    domain, dot, rest".  The address john@example.com followed by a newline
    is not of that shape, and the validator returns it.  The test accepts
    the strings of that shape with or without one final newline. *)
Theorem C7_email_format_accepts_trailing_newline :
  forall ucd,
    let e := lit "john@example.com" ++ [NEWLINE] in
    ~ email_shape e
    /\ run (validate_email ucd None e) = Ok e
    /\ run (validate_email ucd None (lit "not-an-email"))
       = Raise (rule_error EmailFormat)
    /\ run (validate_email ucd None (lit "john@example.com"))
       = Ok (lit "john@example.com")
    /\ (forall s, re_match ucd email_pattern s = true <->
          email_shape s \/ exists s', s = s' ++ [NEWLINE] /\ email_shape s').
Proof.
  intros ucd e. subst e. split; [apply email_shape_no_newline|].
  repeat split;
    try (unfold run; rewrite validate_email_eq; reflexivity).
  - intros H. apply re_match_email in H
      as (a & b & c & Ha & Hb & Hc & Halla & Hallb & Hallc & [Hs | Hs]).
    + left. exists a, b, c. repeat split; auto.
    + right. exists (a ++ ch "@" :: b ++ ch "." :: c). split; [exact Hs|].
      exists a, b, c. repeat split; auto.
  - intros [H | (s' & -> & H)];
      destruct H as (a & b & c & Ha & Hb & Hc & Halla & Hallb & Hallc & ->);
      apply re_match_email; exists a, b, c; repeat split; auto.
Qed.

(** ** The session branch *)

(** With a session attached, a value that passes the syntactic tests makes
    the validator raise [AttributeError]. *)
Lemma username_with_session ucd s u l :
  (3 <= len u <= 30)%nat -> re_match ucd username_pattern u = true ->
  validate_username ucd (Some s) u l = (Raise (AttributeError "query"), l).
Proof.
  intros Hlen Hm. rewrite validate_username_eq, Hm.
  destruct (negb ((3 <=? len u)%nat && _)) eqn:E; [|reflexivity].
  apply length_check_spec in E. lia.
Qed.

Lemma email_with_session ucd s e l :
  re_match ucd email_pattern e = true ->
  validate_email ucd (Some s) e l = (Raise (AttributeError "query"), l).
Proof. intros Hm. rewrite validate_email_eq, Hm. reflexivity. Qed.

(** C1: the store holds the user john_doe and the session is attached, yet
    validating the username john_doe does not end in the duplicate
    rejection: whatever the other fields, the run leaves with
    [AttributeError] and no statement was sent; the email of the stored user
    fares the same. *)
Theorem C1_duplicate_username_raises_attribute_error :
  forall ucd e p,
    In john (rows session_with_john)
    /\ user_username john = lit "john_doe"
    /\ validate ucd (Some session_with_john) (lit "john_doe") e p []
       = (Raise (AttributeError "query"), [])
    /\ Raise (AttributeError "query")
       <> (Raise (rule_error UsernameDuplicate) : result t)
    /\ validate_email ucd (Some session_with_john) (user_email john) []
       = (Raise (AttributeError "query"), []).
Proof.
  intros ucd e p. split; [now left|]. split; [reflexivity|]. split; [|split].
  - rewrite validate_eq, username_with_session;
      [reflexivity | simpl; lia | reflexivity].
  - discriminate.
  - apply email_with_session. reflexivity.
Qed.

(** C2: with a session attached, a username that passes the length and
    character tests, and an email that passes the format test, make their
    validator raise [AttributeError] for the attribute [query]; the log of
    statements is as it was, so nothing was looked up.  With a session the
    validators never return and never raise a duplicate rejection. *)
Theorem C2_session_present_raises_before_lookup :
  forall ucd s u e l,
    ((3 <= len u <= 30)%nat -> re_match ucd username_pattern u = true ->
     validate_username ucd (Some s) u l = (Raise (AttributeError "query"), l))
    /\ (re_match ucd email_pattern e = true ->
        validate_email ucd (Some s) e l = (Raise (AttributeError "query"), l))
    /\ (forall x, fst (validate_username ucd (Some s) u l) <> Ok x)
    /\ fst (validate_username ucd (Some s) u l)
       <> Raise (rule_error UsernameDuplicate)
    /\ (forall x, fst (validate_email ucd (Some s) e l) <> Ok x)
    /\ fst (validate_email ucd (Some s) e l)
       <> Raise (rule_error EmailDuplicate)
    /\ snd (validate_username ucd (Some s) u l) = l
    /\ snd (validate_email ucd (Some s) e l) = l.
Proof.
  intros ucd s u e l.
  split; [apply username_with_session|].
  split; [apply email_with_session|].
  rewrite validate_username_log, validate_email_log.
  rewrite validate_username_eq, validate_email_eq. simpl truthy.
  destruct (negb ((3 <=? len u)%nat && _)),
    (negb (re_match ucd username_pattern u)),
    (negb (re_match ucd email_pattern e)); simpl;
    repeat split; try reflexivity; try intros x; discriminate.
Qed.

Lemma C2_session_present_witness :
  validate_username ascii_only (Some session_with_john) (lit "john_doe") []
    = (Raise (AttributeError "query"), [])
  /\ validate_email ascii_only (Some session_with_john)
       (lit "john@example.com") []
     = (Raise (AttributeError "query"), []).
Proof.
  destruct (C2_session_present_raises_before_lookup ascii_only
              session_with_john (lit "john_doe") (lit "john@example.com") [])
    as (Hu & He & _).
  split.
  - apply Hu; [simpl; lia | reflexivity].
  - apply He. reflexivity.
Defined.

(** ** Without a session *)

(** C9: with no session attached the outcome is a function of the three
    values alone: the length test, the username pattern, the email pattern
    and the first failing password rule, in this order; the run sends no
    statement to the database, raises neither [AttributeError] nor a
    duplicate rejection, and accepts exactly the requests that pass every
    syntactic test. *)
Theorem C9_no_session_syntactic_only :
  forall ucd u e p l,
    validate ucd None u e p l
    = (if negb ((3 <=? len u) && (len u <=? 30))%nat
       then Raise (rule_error UsernameLength)
       else if negb (re_match ucd username_pattern u)
       then Raise (rule_error UsernameCharset)
       else if negb (re_match ucd email_pattern e)
       then Raise (rule_error EmailFormat)
       else match failing_rule ucd (get_secret_value p) with
            | Some r => Raise (rule_error r)
            | None => Ok {| username := u; email := e; password := p |}
            end, l)
    /\ fst (validate ucd None u e p l) <> Raise (AttributeError "query")
    /\ fst (validate ucd None u e p l) <> Raise (rule_error UsernameDuplicate)
    /\ fst (validate ucd None u e p l) <> Raise (rule_error EmailDuplicate)
    /\ (validate ucd None u e p l
        = (Ok {| username := u; email := e; password := p |}, l)
        <-> (3 <= len u <= 30)%nat
            /\ re_match ucd username_pattern u = true
            /\ re_match ucd email_pattern e = true
            /\ failing_rule ucd (get_secret_value p) = None).
Proof.
  intros ucd u e p l.
  assert (E : validate ucd None u e p l
    = (if negb ((3 <=? len u) && (len u <=? 30))%nat
       then Raise (rule_error UsernameLength)
       else if negb (re_match ucd username_pattern u)
       then Raise (rule_error UsernameCharset)
       else if negb (re_match ucd email_pattern e)
       then Raise (rule_error EmailFormat)
       else match failing_rule ucd (get_secret_value p) with
            | Some r => Raise (rule_error r)
            | None => Ok {| username := u; email := e; password := p |}
            end, l)).
  { rewrite validate_eq, validate_username_eq. simpl truthy.
    destruct (negb ((3 <=? len u)%nat && _)); [reflexivity|].
    destruct (negb (re_match ucd username_pattern u)); [reflexivity|].
    rewrite validate_email_eq. simpl truthy.
    destruct (negb (re_match ucd email_pattern e)); [reflexivity|].
    rewrite validate_password_eq.
    destruct (failing_rule ucd _); reflexivity. }
  split; [exact E|]. rewrite E. clear E. cbn [fst rule_error].
  pose proof (length_check_spec u) as Hlen.
  pose proof (@failing_rule_field ucd (get_secret_value p)) as Hf.
  destruct (negb ((3 <=? len u)%nat && _)).
  { split; [discriminate|]. split; [discriminate|]. split; [discriminate|].
    split; [discriminate|].
    intros (H & _). assert (len u < 3 \/ 30 < len u)%nat by now apply Hlen.
    lia. }
  assert (Hlen' : (3 <= len u <= 30)%nat).
  { destruct (Nat.le_gt_cases 3 (len u)), (Nat.le_gt_cases (len u) 30);
      try lia; assert (false = true) by (apply Hlen; lia); discriminate. }
  destruct (re_match ucd username_pattern u); simpl.
  2:{ split; [discriminate|]. split; [discriminate|]. split; [discriminate|].
      split; [discriminate|]. intros (_ & H & _). discriminate. }
  destruct (re_match ucd email_pattern e); simpl.
  2:{ split; [discriminate|]. split; [discriminate|]. split; [discriminate|].
      split; [discriminate|]. intros (_ & _ & H & _). discriminate. }
  destruct (failing_rule ucd _) as [r|].
  - specialize (Hf r eq_refl).
    split; [destruct r; simpl; discriminate|].
    split; [destruct r; simpl in *; discriminate|].
    split; [destruct r; simpl in *; discriminate|].
    split; [discriminate|]. intros (_ & _ & _ & H). discriminate.
  - split; [discriminate|]. split; [discriminate|]. split; [discriminate|].
    split; auto.
Qed.

(** ** What a run can raise *)

Section Raises.
Variable ucd : UnicodeData.
Variable db_session : option Session.

Lemma validate_raise_cases u e p l x :
  fst (validate ucd db_session u e p l) = Raise x ->
  fst (validate_username ucd db_session u l) = Raise x
  \/ fst (validate_email ucd db_session e l) = Raise x
  \/ fst (validate_password ucd p l) = Raise x.
Proof.
  rewrite validate_eq.
  pose proof (validate_username_log ucd db_session u l) as H1.
  destruct (validate_username _ _ _ _) as [[u'|y] l1]; simpl in H1; subst l1;
    [|simpl; intros H; inversion H; auto].
  pose proof (validate_email_log ucd db_session e l) as H2.
  destruct (validate_email _ _ _ _) as [[e'|y] l2]; simpl in H2; subst l2;
    [|simpl; intros H; inversion H; auto].
  destruct (validate_password _ _ _) as [[p'|y] l3]; simpl; [discriminate|intros H; inversion H; auto].
Qed.

Lemma validate_username_raises u l x :
  fst (validate_username ucd db_session u l) = Raise x ->
  x = rule_error UsernameLength \/ x = rule_error UsernameCharset
  \/ x = AttributeError "query".
Proof.
  rewrite validate_username_eq.
  repeat match goal with |- context [if ?b then _ else _] => destruct b end;
    simpl; intros H; inversion H; auto.
Qed.

Lemma validate_email_raises e l x :
  fst (validate_email ucd db_session e l) = Raise x ->
  x = rule_error EmailFormat \/ x = AttributeError "query".
Proof.
  rewrite validate_email_eq.
  repeat match goal with |- context [if ?b then _ else _] => destruct b end;
    simpl; intros H; inversion H; auto.
Qed.

Lemma validate_password_raises p l x :
  fst (validate_password ucd p l) = Raise x ->
  exists r, x = rule_error r /\ rule_field r = Password.
Proof.
  rewrite validate_password_eq. cbn [fst].
  destruct (failing_rule ucd _) as [r|] eqn:E; intros H; inversion H.
  exists r. split; [reflexivity|]. eapply failing_rule_field; eauto.
Qed.

End Raises.

(** ** Rejections *)

(** C4: a rejection is an [HTTPException] whose detail is one of ten
    constants, one per sub-rule.  Distinct sub-rules have distinct
    exceptions, a sub-rule is determined by its field and reason code, and
    the exception a run raises is that of a sub-rule of the field whose
    validator raised it: from the exception alone the failing field and the
    reason can be told. *)
Theorem C4_rejections_are_distinguishable :
  (forall r1 r2, rule_error r1 = rule_error r2 -> r1 = r2)
  /\ (forall r1 r2,
        rule_field r1 = rule_field r2 -> rule_reason r1 = rule_reason r2 ->
        r1 = r2)
  /\ (forall ucd db_session u e p l sc d,
        fst (validate ucd db_session u e p l) = Raise (HTTPException sc d) ->
        exists r,
          rule_error r = HTTPException sc d
          /\ match rule_field r with
             | Username =>
                 fst (validate_username ucd db_session u l)
                 = Raise (rule_error r)
             | Email =>
                 fst (validate_email ucd db_session e l)
                 = Raise (rule_error r)
             | Password =>
                 fst (validate_password ucd p l) = Raise (rule_error r)
             end).
Proof.
  split; [exact rule_error_inj|]. split.
  - intros r1 r2 Hf Hr. destruct r1, r2; try reflexivity; discriminate.
  - intros ucd db u e p l sc d H.
    apply validate_raise_cases in H as [H | [H | H]].
    + destruct (validate_username_raises _ _ _ _ H) as [E | [E | E]];
        [exists UsernameLength | exists UsernameCharset | discriminate E];
        rewrite <- E; auto.
    + destruct (validate_email_raises _ _ _ _ H) as [E | E];
        [exists EmailFormat | discriminate E]; rewrite <- E; auto.
    + destruct (validate_password_raises _ _ _ H) as (r & E & Hf).
      exists r. rewrite Hf, <- E. auto.
Qed.

Lemma C4_rejections_witness :
  exists r,
    rule_error r = HTTPException 400 "Invalid email address"
    /\ rule_field r = Email.
Proof.
  destruct C4_rejections_are_distinguishable as (_ & _ & H).
  destruct (H ascii_only None (lit "john_doe") (lit "not-an-email")
              (secret "SecurePass1!") [] 400%Z "Invalid email address"
              eq_refl) as (r & Hr & _).
  exists r. split; [exact Hr|].
  destruct r; try discriminate Hr; reflexivity.
Defined.

(** ** Order of evaluation *)

(** C6: the fields are validated in the order username, email, password and
    the first exception is the outcome, whatever the later fields hold.  In
    the username validator the length test comes first, the character test
    second and the session branch last; in the email validator the format
    test comes before the session branch; the password validator raises for
    the first failing rule of the five in their order. *)
Theorem C6_first_rejection_wins :
  forall ucd db_session u e p l,
    (forall x, fst (validate_username ucd db_session u l) = Raise x ->
       forall e' p', validate ucd db_session u e' p' l = (Raise x, l))
    /\ (forall x,
          (exists u', fst (validate_username ucd db_session u l) = Ok u') ->
          fst (validate_email ucd db_session e l) = Raise x ->
          forall p', validate ucd db_session u e p' l = (Raise x, l))
    /\ ((exists u', fst (validate_username ucd db_session u l) = Ok u') ->
        (exists e', fst (validate_email ucd db_session e l) = Ok e') ->
        validate ucd db_session u e p l
        = (match fst (validate_password ucd p l) with
           | Raise x => Raise x
           | Ok p' => Ok {| username := u; email := e; password := p' |}
           end, l))
    /\ ((len u < 3 \/ 30 < len u)%nat ->
        fst (validate_username ucd db_session u l)
        = Raise (rule_error UsernameLength))
    /\ ((3 <= len u <= 30)%nat -> re_match ucd username_pattern u = false ->
        fst (validate_username ucd db_session u l)
        = Raise (rule_error UsernameCharset))
    /\ ((3 <= len u <= 30)%nat -> re_match ucd username_pattern u = true ->
        fst (validate_username ucd db_session u l)
        = if truthy db_session then Raise (AttributeError "query") else Ok u)
    /\ (re_match ucd email_pattern e = false ->
        fst (validate_email ucd db_session e l)
        = Raise (rule_error EmailFormat))
    /\ (re_match ucd email_pattern e = true ->
        fst (validate_email ucd db_session e l)
        = if truthy db_session then Raise (AttributeError "query") else Ok e)
    /\ fst (validate_password ucd p l)
       = match failing_rule ucd (get_secret_value p) with
         | Some r => Raise (rule_error r)
         | None => Ok p
         end.
Proof.
  intros ucd db u e p l.
  assert (Hlen : forall b : bool,
    negb ((3 <=? len u) && (len u <=? 30))%nat = b ->
    if b then (len u < 3 \/ 30 < len u)%nat else (3 <= len u <= 30)%nat).
  { intros b <-.
    destruct (Nat.leb_spec 3 (len u)), (Nat.leb_spec (len u) 30); simpl; lia. }
  split; [|split; [|split]].
  - intros x H e' p'. rewrite validate_eq.
    pose proof (validate_username_log ucd db u l) as Hl.
    destruct (validate_username _ _ _ _) as [[u'|y] l1]; simpl in *;
      [discriminate | congruence].
  - intros x (u' & Hu) He p'. rewrite validate_eq.
    pose proof (validate_username_log ucd db u l) as Hl.
    destruct (validate_username _ _ _ _) as [[u''|y] l1]; simpl in *;
      [subst l1 | discriminate].
    pose proof (validate_email_log ucd db e l) as Hl.
    destruct (validate_email _ _ _ _) as [[e'|y] l2]; simpl in *;
      [discriminate | congruence].
  - intros (u' & Hu) (e' & He). rewrite validate_eq. clear Hlen.
    rewrite validate_username_eq in *.
    destruct (negb ((3 <=? len u)%nat && _)); [discriminate|].
    destruct (negb (re_match ucd username_pattern u)); [discriminate|].
    destruct db as [s|]; cbn [truthy] in *; [discriminate|].
    rewrite validate_email_eq in *. cbn [truthy] in *.
    destruct (negb (re_match ucd email_pattern e)); [discriminate|].
    rewrite validate_password_eq. cbn [fst].
    destruct (failing_rule ucd _); reflexivity.
  - rewrite validate_username_eq, validate_email_eq, validate_password_eq.
    specialize (Hlen _ eq_refl).
    destruct (negb ((3 <=? len u)%nat && _));
      destruct (re_match ucd username_pattern u);
      destruct (re_match ucd email_pattern e);
      destruct (truthy db); simpl;
      repeat split; intros; try reflexivity; try discriminate; lia.
Qed.

Lemma C6_first_rejection_witness :
  validate ascii_only None (lit "ab") (lit "not-an-email") (secret "short1!") []
    = (Raise (rule_error UsernameLength), [])
  /\ validate ascii_only None (lit "john_doe") (lit "not-an-email")
       (secret "short1!") []
     = (Raise (rule_error EmailFormat), []).
Proof.
  split.
  - destruct (C6_first_rejection_wins ascii_only None (lit "ab")
                (lit "not-an-email") (secret "short1!") []) as (H & _).
    apply H. reflexivity.
  - destruct (C6_first_rejection_wins ascii_only None (lit "john_doe")
                (lit "not-an-email") (secret "short1!") []) as (_ & H & _).
    apply H.
    + exists (lit "john_doe"). reflexivity.
    + reflexivity.
Defined.

(** ** The password and the error payload *)

(** C10: two requests that differ only in the password, and whose passwords
    fail the same rule, have the same outcome, exception included; and
    every exception a run raises is one of eleven constants fixed in the
    source, so no part of a password can appear in it. *)
Theorem C10_password_absent_from_error_payload :
  (forall ucd db_session u e p1 p2 l r,
     failing_rule ucd (get_secret_value p1) = Some r ->
     failing_rule ucd (get_secret_value p2) = Some r ->
     validate ucd db_session u e p1 l = validate ucd db_session u e p2 l)
  /\ (forall ucd db_session u e p l x,
        fst (validate ucd db_session u e p l) = Raise x ->
        In x (AttributeError "query" :: map rule_error all_rules)).
Proof.
  split.
  - intros ucd db u e p1 p2 l r H1 H2. rewrite !validate_eq.
    destruct (validate_username _ _ _ _) as [[u'|y] l1]; [|reflexivity].
    destruct (validate_email _ _ _ _) as [[e'|y] l2]; [|reflexivity].
    rewrite !validate_password_eq, H1, H2. reflexivity.
  - intros ucd db u e p l x H.
    apply validate_raise_cases in H as [H | [H | H]].
    + destruct (validate_username_raises _ _ _ _ H) as [-> | [-> | ->]];
        simpl; repeat (first [left; reflexivity | right]).
    + destruct (validate_email_raises _ _ _ _ H) as [-> | ->];
        simpl; repeat (first [left; reflexivity | right]).
    + destruct (validate_password_raises _ _ _ H) as (r & -> & _).
      right. apply in_map.
      destruct r; simpl; repeat (first [left; reflexivity | right]).
Qed.

Lemma C10_password_witness :
  validate ascii_only None (lit "john_doe") (lit "john@example.com")
    (secret "short1!") []
  = validate ascii_only None (lit "john_doe") (lit "john@example.com")
      (secret "abc") [].
Proof.
  destruct C10_password_absent_from_error_payload as (H & _).
  apply (H ascii_only None (lit "john_doe") (lit "john@example.com")
           (secret "short1!") (secret "abc") [] PasswordTooShort);
    reflexivity.
Defined.

(** * Further properties of the validators *)

(** ** Accepted usernames *)

Lemma ascii_username_accepted_witness :
  validate_username ascii_only None (lit "john_doe") []
  = (Ok (lit "john_doe"), []).
Proof.
  apply (@ascii_username_accepted ascii_only (lit "john_doe") []).
  - simpl. lia.
  - reflexivity.
Defined.

(** ** A session makes the later fields irrelevant *)

(** X2: with a session attached no request is accepted, and the outcome is a
    function of the username alone: the store, the email and the password
    have no part in it. *)
Theorem session_outcome_depends_on_username_only :
  forall ucd s s' u e e' p p' l,
    validate ucd (Some s) u e p l = validate ucd (Some s') u e' p' l
    /\ (forall x, fst (validate ucd (Some s) u e p l) <> Ok x)
    /\ (fst (validate ucd (Some s) u e p l) = Raise (AttributeError "query")
        <-> (3 <= len u <= 30)%nat
            /\ re_match ucd username_pattern u = true).
Proof.
  intros ucd s s' u e e' p p' l. rewrite !validate_eq, !validate_username_eq.
  cbn [truthy rule_error].
  pose proof (length_check_spec u) as Hlen.
  destruct (negb ((3 <=? len u)%nat && _)).
  { split; [reflexivity|]. split; [discriminate|]. cbn [fst].
    split; [discriminate|]. intros [H _].
    assert (len u < 3 \/ 30 < len u)%nat by now apply Hlen. lia. }
  assert (Hlen' : (3 <= len u <= 30)%nat).
  { destruct (Nat.le_gt_cases 3 (len u)), (Nat.le_gt_cases (len u) 30);
      try lia; assert (false = true) by (apply Hlen; lia); discriminate. }
  destruct (re_match ucd username_pattern u); simpl.
  - split; [reflexivity|]. split; [discriminate|]. split; auto.
  - split; [reflexivity|]. split; [discriminate|].
    split; [discriminate|]. intros [_ H]. discriminate.
Qed.

(** ** The database is never queried *)

(** X3: whatever the session and the request, a run leaves the log of
    statements as it found it: no validator reaches the database. *)
Theorem validate_never_queries_database :
  forall ucd db_session u e p l,
    snd (validate ucd db_session u e p l) = l
    /\ snd (validate_username ucd db_session u l) = l
    /\ snd (validate_email ucd db_session e l) = l
    /\ snd (validate_password ucd p l) = l.
Proof.
  intros. split; [apply validate_log|]. split; [apply validate_username_log|].
  split; [apply validate_email_log | apply validate_password_log].
Qed.

(** ** Accepted values are returned as given *)

(** X4: an accepted request comes back with the three values it was given,
    untrimmed and in the same case, and acceptance implies that no session
    was attached. *)
Theorem accepted_request_is_unchanged :
  forall ucd db_session u e p l t,
    fst (validate ucd db_session u e p l) = Ok t ->
    t = {| username := u; email := e; password := p |}
    /\ db_session = None.
Proof.
  intros ucd db u e p l t. rewrite validate_eq, validate_username_eq.
  destruct (negb ((3 <=? len u)%nat && _)); [discriminate|].
  destruct (negb (re_match ucd username_pattern u)); [discriminate|].
  destruct db as [s|]; cbn [truthy]; [discriminate|].
  rewrite validate_email_eq. cbn [truthy].
  destruct (negb (re_match ucd email_pattern e)); [discriminate|].
  rewrite validate_password_eq.
  destruct (failing_rule ucd _); [discriminate|].
  cbn [fst]. intros H. injection H as <-. auto.
Qed.

Lemma accepted_request_is_unchanged_witness :
  {| username := lit "john_doe"; email := lit "john@example.com";
     password := secret "SecurePass1!" |}
  = {| username := lit "john_doe"; email := lit "john@example.com";
       password := secret "SecurePass1!" |}
  /\ (None : option Session) = None.
Proof.
  apply (@accepted_request_is_unchanged ascii_only None (lit "john_doe")
           (lit "john@example.com") (secret "SecurePass1!") []).
  reflexivity.
Defined.

(** ** What an accepted email looks like *)

Lemma forallb_impl (P Q : char -> bool) (l : str) :
  (forall c, P c = true -> Q c = true) ->
  forallb P l = true -> forallb Q l = true.
Proof.
  intros H Hall. apply forallb_forall. intros c Hc. apply H.
  apply (proj1 (forallb_forall P l) Hall c Hc).
Qed.

Lemma count_occ_class (P : char -> bool) (x : char) (l : str) :
  P x = false -> forallb P l = true -> count_occ N.eq_dec l x = 0%nat.
Proof.
  intros Hx Hall. apply count_occ_not_In. intros Hin.
  rewrite (proj1 (forallb_forall P l) Hall x Hin) in Hx. discriminate.
Qed.

Ltac class_bounds H :=
  unfold in_set, in_item, range, one, between, ch in H; cbn in H;
  repeat match type of H with
         | (_ || _)%bool = true => apply orb_prop in H as [H|H]
         end;
  try discriminate H;
  repeat match type of H with
         | (_ && _)%bool = true => apply andb_prop in H as [_ H]
         end;
  first [apply N.leb_le in H | apply N.eqb_eq in H];
  unfold is_ascii; apply N.ltb_lt; lia.

Lemma email_local_ascii c :
  in_set ascii_only email_local c = true -> is_ascii c = true.
Proof. unfold email_local. intros H. class_bounds H. Qed.

Lemma email_domain_ascii c :
  in_set ascii_only email_domain c = true -> is_ascii c = true.
Proof. unfold email_domain. intros H. class_bounds H. Qed.

Lemma email_tld_ascii c :
  in_set ascii_only email_tld c = true -> is_ascii c = true.
Proof. unfold email_tld. intros H. class_bounds H. Qed.

Lemma email_accepted_iff ucd db_session e l e' :
  fst (validate_email ucd db_session e l) = Ok e' ->
  re_match ucd email_pattern e = true.
Proof.
  rewrite validate_email_eq.
  destruct (re_match ucd email_pattern e); [reflexivity|discriminate].
Qed.

(** X5: an accepted email holds exactly one [@], which is not its first
    character and is followed by a dot further on; it has at least five
    characters, all of them ASCII. *)
Theorem accepted_email_facts :
  forall ucd db_session e l e',
    fst (validate_email ucd db_session e l) = Ok e' ->
    count_occ N.eq_dec e (ch "@") = 1%nat
    /\ (exists a rest, a <> [] /\ e = a ++ ch "@" :: rest /\ In (ch ".") rest)
    /\ (5 <= len e)%nat
    /\ forallb is_ascii e = true.
Proof.
  intros ucd db e l e' H. apply email_accepted_iff in H.
  apply re_match_email in H
    as (a & b & c & Ha & Hb & Hc & Halla & Hallb & Hallc & Hs).
  unfold str, char in *.
  assert (Hca : count_occ N.eq_dec a (ch "@") = 0%nat)
    by (apply (@count_occ_class (in_set ascii_only email_local) (ch "@") a
          eq_refl Halla)).
  assert (Hcb : count_occ N.eq_dec b (ch "@") = 0%nat)
    by (apply (@count_occ_class (in_set ascii_only email_domain) (ch "@") b
          eq_refl Hallb)).
  assert (Hcc : count_occ N.eq_dec c (ch "@") = 0%nat)
    by (apply (@count_occ_class (in_set ascii_only email_tld) (ch "@") c
          eq_refl Hallc)).
  assert (Hla : (1 <= List.length a)%nat) by (destruct a; [congruence|simpl; lia]).
  assert (Hlb : (1 <= List.length b)%nat) by (destruct b; [congruence|simpl; lia]).
  assert (Hlc : (1 <= List.length c)%nat) by (destruct c; [congruence|simpl; lia]).
  apply (@forallb_impl _ is_ascii _ email_local_ascii) in Halla.
  apply (@forallb_impl _ is_ascii _ email_domain_ascii) in Hallb.
  apply (@forallb_impl _ is_ascii _ email_tld_ascii) in Hallc.
  assert (Hcore : count_occ N.eq_dec (a ++ ch "@" :: b ++ ch "." :: c) (ch "@")
                  = 1%nat).
  { rewrite count_occ_app, count_occ_cons_eq by reflexivity.
    rewrite count_occ_app, count_occ_cons_neq by discriminate.
    unfold char in *. rewrite Hca, Hcb, Hcc. reflexivity. }
  assert (Hascii : forallb is_ascii (a ++ ch "@" :: b ++ ch "." :: c) = true).
  { rewrite forallb_app. cbn [forallb]. rewrite forallb_app. cbn [forallb].
    unfold char in *. rewrite Halla, Hallb, Hallc. reflexivity. }
  assert (Hlen : (5 <= List.length (a ++ ch "@" :: b ++ ch "." :: c))%nat).
  { rewrite length_app. cbn [List.length]. rewrite length_app.
    cbn [List.length]. lia. }
  destruct Hs as [-> | ->].
  - split; [exact Hcore|]. split; [|split; [exact Hlen | exact Hascii]].
    exists a, (b ++ ch "." :: c). split; [exact Ha|]. split; [reflexivity|].
    apply in_or_app. right. now left.
  - split; [|split; [|split]].
    + rewrite count_occ_app. unfold char in *. rewrite Hcore. reflexivity.
    + exists a, ((b ++ ch "." :: c) ++ [NEWLINE]). split; [exact Ha|].
      split.
      * rewrite <- !app_assoc. simpl. rewrite <- !app_assoc. reflexivity.
      * apply in_or_app. left. apply in_or_app. right. now left.
    + unfold len. rewrite length_app. unfold char in *. lia.
    + rewrite forallb_app. unfold char in *. rewrite Hascii. reflexivity.
Qed.

Lemma accepted_email_facts_witness :
  count_occ N.eq_dec (lit "john@example.com") (ch "@") = 1%nat
  /\ (5 <= len (lit "john@example.com"))%nat.
Proof.
  destruct (@accepted_email_facts ascii_only None (lit "john@example.com") []
              (lit "john@example.com") eq_refl) as (H1 & _ & H3 & _).
  split; [exact H1 | exact H3].
Defined.

(** ** No value is both a username and an email *)

Lemma username_is_not_email ucd v :
  re_match ucd username_pattern v = true ->
  re_match ucd email_pattern v = false.
Proof.
  intros Hu. destruct (re_match ucd email_pattern v) eqn:He; [|reflexivity].
  exfalso.
  apply re_match_username in Hu as (w & _ & Hall & Hv).
  apply re_match_email in He as (a & b & c & _ & _ & _ & _ & _ & _ & Hs).
  assert (Hin : In (ch "@") v).
  { destruct Hs as [-> | ->].
    - apply in_or_app. right. now left.
    - apply in_or_app. left. apply in_or_app. right. now left. }
  assert (Hw : In (ch "@") w).
  { destruct Hv as [-> | ->]; [exact Hin|].
    apply in_app_or in Hin as [Hin | [Hin | []]]; [exact Hin|discriminate]. }
  pose proof (proj1 (forallb_forall _ _) Hall _ Hw) as H. discriminate H.
Qed.

(** X6: a value the username validator returns is refused by the email
    validator for its format, and a value the email validator returns is
    refused by the username validator: the lookup the email branch writes,
    a stored username equal to the email, could not find a validated
    username. *)
Theorem no_value_is_both_username_and_email :
  forall ucd db_session v l,
    ((exists u', fst (validate_username ucd db_session v l) = Ok u') ->
     validate_email ucd db_session v l = (Raise (rule_error EmailFormat), l))
    /\ ((exists e', fst (validate_email ucd db_session v l) = Ok e') ->
        exists r, rule_field r = Username
                  /\ validate_username ucd db_session v l
                     = (Raise (rule_error r), l)).
Proof.
  intros ucd db v l. split.
  - intros (u' & H). rewrite validate_email_eq.
    rewrite validate_username_eq in H.
    destruct (negb ((3 <=? len v)%nat && _)); [discriminate|].
    destruct (re_match ucd username_pattern v) eqn:Hu; [|discriminate].
    rewrite (@username_is_not_email _ _ Hu). reflexivity.
  - intros (e' & H). apply email_accepted_iff in H.
    rewrite validate_username_eq.
    destruct (negb ((3 <=? len v)%nat && _)).
    + exists UsernameLength. auto.
    + destruct (re_match ucd username_pattern v) eqn:Hu.
      * rewrite (@username_is_not_email _ _ Hu) in H. discriminate.
      * exists UsernameCharset. auto.
Qed.

Lemma no_value_is_both_witness :
  validate_email ascii_only None (lit "john_doe") []
    = (Raise (rule_error EmailFormat), [])
  /\ exists r, rule_field r = Username
               /\ validate_username ascii_only None (lit "john@example.com") []
                  = (Raise (rule_error r), []).
Proof.
  split.
  - apply (no_value_is_both_username_and_email ascii_only None
             (lit "john_doe") []).
    exists (lit "john_doe"). reflexivity.
  - apply (no_value_is_both_username_and_email ascii_only None
             (lit "john@example.com") []).
    exists (lit "john@example.com"). reflexivity.
Defined.

(** ** The Unicode database matters for non-ASCII input only *)

Lemma forallb_ext_in (f g : char -> bool) (l : str) :
  (forall c, In c l -> f c = g c) -> forallb f l = forallb g l.
Proof.
  induction l as [|x l IH]; intros H; [reflexivity|]. cbn [forallb].
  rewrite (H x (or_introl eq_refl)), IH; [reflexivity|].
  intros c Hc. apply H. now right.
Qed.

Lemma existsb_ext_in (f g : char -> bool) (l : str) :
  (forall c, In c l -> f c = g c) -> existsb f l = existsb g l.
Proof.
  induction l as [|x l IH]; intros H; [reflexivity|]. cbn [existsb].
  rewrite (H x (or_introl eq_refl)), IH; [reflexivity|].
  intros c Hc. apply H. now right.
Qed.

Lemma word_ascii_indep ucd ucd' c :
  is_ascii c = true -> word ucd c = word ucd' c.
Proof.
  unfold word, in_category, Py_UNICODE_ISALNUM, is_ascii. intros ->.
  reflexivity.
Qed.

Lemma digit_ascii_indep ucd ucd' c :
  is_ascii c = true -> digit ucd c = digit ucd' c.
Proof.
  unfold digit, in_category, Py_UNICODE_ISDECIMAL, is_ascii. intros ->.
  reflexivity.
Qed.

Lemma username_match_one_way ucd ucd' u :
  forallb is_ascii u = true ->
  re_match ucd username_pattern u = true ->
  re_match ucd' username_pattern u = true.
Proof.
  intros Hu H. apply re_match_username in H as (w & Hne & Hall & Hs).
  apply re_match_username. exists w. split; [exact Hne|]. split; [|exact Hs].
  rewrite <- Hall. apply forallb_ext_in. intros c Hc.
  apply word_ascii_indep.
  apply (proj1 (forallb_forall is_ascii u) Hu).
  destruct Hs as [-> | ->]; [exact Hc | apply in_or_app; now left].
Qed.

Lemma username_match_indep ucd ucd' u :
  forallb is_ascii u = true ->
  re_match ucd username_pattern u = re_match ucd' username_pattern u.
Proof.
  intros Hu. apply eq_true_iff_eq.
  split; apply username_match_one_way; exact Hu.
Qed.

Lemma email_match_indep ucd ucd' e :
  re_match ucd email_pattern e = re_match ucd' email_pattern e.
Proof. apply eq_true_iff_eq. rewrite !re_match_email. reflexivity. Qed.

Lemma failing_rule_indep ucd ucd' s :
  forallb is_ascii s = true -> failing_rule ucd s = failing_rule ucd' s.
Proof.
  intros Hs. unfold failing_rule.
  rewrite (@existsb_ext_in (digit ucd) (digit ucd') s); [reflexivity|].
  intros c Hc. apply digit_ascii_indep.
  apply (proj1 (forallb_forall is_ascii s) Hs c Hc).
Qed.

(** X7: the email validator never consults the Unicode database, and for an
    ASCII username and an ASCII password the whole run is the same under any
    two databases. *)
Theorem ascii_request_ignores_unicode_database :
  forall ucd ucd' db_session u e p l,
    validate_email ucd db_session e l = validate_email ucd' db_session e l
    /\ (forallb is_ascii u = true ->
        forallb is_ascii (get_secret_value p) = true ->
        validate ucd db_session u e p l = validate ucd' db_session u e p l).
Proof.
  intros ucd ucd' db u e p l.
  assert (He : validate_email ucd db e l = validate_email ucd' db e l).
  { rewrite !validate_email_eq, (email_match_indep ucd ucd'). reflexivity. }
  split; [exact He|]. intros Hu Hp.
  assert (Hn : validate_username ucd db u l = validate_username ucd' db u l).
  { rewrite !validate_username_eq, (@username_match_indep ucd ucd' u Hu).
    reflexivity. }
  rewrite !validate_eq, Hn.
  destruct (validate_username ucd' db u l) as [[u'|x] l1]; [|reflexivity].
  rewrite !validate_email_eq, (email_match_indep ucd ucd').
  destruct (negb (re_match ucd' email_pattern e)); [reflexivity|].
  destruct (truthy db); [reflexivity|].
  rewrite !validate_password_eq, (@failing_rule_indep ucd ucd' _ Hp).
  reflexivity.
Qed.

Lemma ascii_request_witness :
  validate ascii_only None (lit "john_doe") (lit "john@example.com")
    (secret "SecurePass1!") []
  = validate sample_ucd None (lit "john_doe") (lit "john@example.com")
      (secret "SecurePass1!") [].
Proof.
  apply (ascii_request_ignores_unicode_database ascii_only sample_ucd None
           (lit "john_doe") (lit "john@example.com") (secret "SecurePass1!")
           []); reflexivity.
Defined.

(** ** Passwords as multisets of characters *)

Lemma existsb_perm (f : char -> bool) (l l' : str) :
  Permutation l l' -> existsb f l = existsb f l'.
Proof.
  intros H. apply eq_true_iff_eq. rewrite !existsb_exists.
  split; intros (x & Hin & Hx); exists x; split; auto.
  - apply (Permutation_in x H Hin).
  - apply (Permutation_in x (Permutation_sym H) Hin).
Qed.

Lemma failing_rule_perm ucd s s' :
  Permutation s s' -> failing_rule ucd s = failing_rule ucd s'.
Proof.
  intros H. unfold failing_rule, len.
  rewrite (Permutation_length H).
  rewrite (existsb_perm ascii_upper H), (existsb_perm ascii_lower H),
    (existsb_perm (digit ucd) H), (existsb_perm special H).
  reflexivity.
Qed.

(** X8: the password rules do not look at the order of the characters: two
    passwords that are rearrangements of one another are both accepted or
    are both refused with the same exception. *)
Theorem password_rules_ignore_order :
  forall ucd p1 p2 l,
    Permutation (get_secret_value p1) (get_secret_value p2) ->
    (fst (validate_password ucd p1 l) = Ok p1
     <-> fst (validate_password ucd p2 l) = Ok p2)
    /\ (forall x, fst (validate_password ucd p1 l) = Raise x
                  <-> fst (validate_password ucd p2 l) = Raise x).
Proof.
  intros ucd p1 p2 l H. rewrite !validate_password_eq. cbn [fst].
  rewrite (failing_rule_perm ucd H).
  destruct (failing_rule ucd (get_secret_value p2)) as [r|].
  - split; [split; discriminate | reflexivity].
  - split; [split; reflexivity | split; discriminate].
Qed.

Lemma password_rules_ignore_order_witness :
  fst (validate_password ascii_only (secret "SecurePass1!") [])
    = Ok (secret "SecurePass1!")
  <-> fst (validate_password ascii_only (secret "!SecurePass1") [])
      = Ok (secret "!SecurePass1").
Proof.
  apply (@password_rules_ignore_order ascii_only (secret "SecurePass1!")
           (secret "!SecurePass1") []).
  change (get_secret_value (secret "SecurePass1!"))
    with (lit "SecurePass1" ++ [ch "!"]).
  change (get_secret_value (secret "!SecurePass1"))
    with (ch "!" :: lit "SecurePass1").
  apply Permutation_sym. apply Permutation_cons_append.
Defined.

(** X9: an accepted password stays accepted when characters are put before it
    and after it: the rules set no upper bound on the length and exclude no
    character. *)
Theorem accepted_password_extends :
  forall ucd p l a b,
    fst (validate_password ucd p l) = Ok p ->
    let q := {| get_secret_value := a ++ get_secret_value p ++ b |} in
    fst (validate_password ucd q l) = Ok q.
Proof.
  intros ucd p l a b H q. rewrite validate_password_eq in *. cbn [fst] in *.
  destruct (failing_rule ucd (get_secret_value p)) eqn:E; [discriminate|].
  assert (Hq : failing_rule ucd (get_secret_value q) = None);
    [|rewrite Hq; reflexivity].
  apply failing_rule_spec in E as (Hlen & Hu & Hl & Hd & Hs).
  apply failing_rule_spec.
  assert (Hmono : forall P, has P (get_secret_value p) ->
                            has P (get_secret_value q)).
  { intros P (c & Hc & HP). exists c. split; [|exact HP].
    subst q. cbn [get_secret_value]. apply in_or_app. right.
    apply in_or_app. now left. }
  repeat split; auto.
  subst q. cbn [get_secret_value]. unfold len in *.
  rewrite !length_app. unfold char in *. lia.
Qed.

Lemma accepted_password_extends_witness :
  fst (validate_password ascii_only
         {| get_secret_value :=
              lit "  " ++ get_secret_value (secret "SecurePass1!")
              ++ lit "~~" |} [])
  = Ok {| get_secret_value :=
            lit "  " ++ get_secret_value (secret "SecurePass1!")
            ++ lit "~~" |}.
Proof.
  apply (@accepted_password_extends ascii_only (secret "SecurePass1!") []
           (lit "  ") (lit "~~")).
  reflexivity.
Defined.

(** ** A final newline and trailing punctuation *)

Lemma username_accepted_inv ucd db_session u l u' :
  fst (validate_username ucd db_session u l) = Ok u' ->
  (3 <= len u <= 30)%nat /\ re_match ucd username_pattern u = true
  /\ db_session = None.
Proof.
  rewrite validate_username_eq.
  pose proof (length_check_spec u) as Hlen.
  destruct (negb ((3 <=? len u)%nat && _)); [discriminate|].
  destruct (re_match ucd username_pattern u); [|discriminate].
  destruct db_session; [discriminate|]. intros _.
  split; [|auto].
  destruct (Nat.le_gt_cases 3 (len u)), (Nat.le_gt_cases (len u) 30);
    try lia; assert (false = true) by (apply Hlen; lia); discriminate.
Qed.

(** X10: a username that is accepted, does not end in a newline and has fewer
    than 30 characters is accepted again with a newline put after it; an
    accepted email that does not end in a newline is accepted again with a
    newline put after it. *)
Theorem final_newline_is_tolerated :
  forall ucd v l v',
    last v 0%N <> NEWLINE ->
    (fst (validate_username ucd None v l) = Ok v' -> (len v < 30)%nat ->
     validate_username ucd None (v ++ [NEWLINE]) l = (Ok (v ++ [NEWLINE]), l))
    /\ (fst (validate_email ucd None v l) = Ok v' ->
        validate_email ucd None (v ++ [NEWLINE]) l
        = (Ok (v ++ [NEWLINE]), l)).
Proof.
  intros ucd v l v' Hlast. split.
  - intros H Hlt. apply username_accepted_inv in H as (Hlen & Hm & _).
    apply re_match_username in Hm as (w & Hne & Hall & Hs).
    destruct Hs as [-> | ->]; [|rewrite last_last in Hlast; congruence].
    assert (Hm : re_match ucd username_pattern (w ++ [NEWLINE]) = true).
    { apply re_match_username. exists w. auto. }
    assert (Hl : negb ((3 <=? len (w ++ [NEWLINE]))
                       && (len (w ++ [NEWLINE]) <=? 30))%nat = false).
    { destruct (negb _) eqn:E; [|reflexivity].
      apply length_check_spec in E. unfold len in *.
      rewrite length_app in E. cbn [List.length] in E.
      unfold char in *. lia. }
    rewrite validate_username_eq. unfold str, char in *. rewrite Hl, Hm.
    reflexivity.
  - intros H. apply email_accepted_iff in H.
    apply re_match_email in H
      as (a & b & c & Ha & Hb & Hc & Halla & Hallb & Hallc & Hs).
    destruct Hs as [-> | ->]; [|rewrite last_last in Hlast; congruence].
    assert (Hm : re_match ucd email_pattern
                   ((a ++ ch "@" :: b ++ ch "." :: c) ++ [NEWLINE]) = true).
    { apply re_match_email. exists a, b, c. repeat split; auto. }
    rewrite validate_email_eq. unfold str, char in *. rewrite Hm.
    reflexivity.
Qed.

Lemma final_newline_witness :
  validate_username ascii_only None (lit "john_doe" ++ [NEWLINE]) []
    = (Ok (lit "john_doe" ++ [NEWLINE]), [])
  /\ validate_email ascii_only None (lit "john@example.com" ++ [NEWLINE]) []
     = (Ok (lit "john@example.com" ++ [NEWLINE]), []).
Proof.
  split.
  - apply (@final_newline_is_tolerated ascii_only (lit "john_doe") []
             (lit "john_doe")).
    + discriminate.
    + reflexivity.
    + simpl. lia.
  - apply (@final_newline_is_tolerated ascii_only (lit "john@example.com") []
             (lit "john@example.com")).
    + discriminate.
    + reflexivity.
Defined.

(** X11: an accepted email that does not end in a newline is accepted again
    with any run of letters, digits, hyphens and dots put after it: the
    pattern lets an address end in dots or hyphens. *)
Theorem accepted_email_extends_with_tld_characters :
  forall ucd e l e' t,
    fst (validate_email ucd None e l) = Ok e' ->
    last e 0%N <> NEWLINE ->
    forallb (in_set ascii_only email_tld) t = true ->
    validate_email ucd None (e ++ t) l = (Ok (e ++ t), l).
Proof.
  intros ucd e l e' t H Hlast Ht. apply email_accepted_iff in H.
  apply re_match_email in H
    as (a & b & c & Ha & Hb & Hc & Halla & Hallb & Hallc & Hs).
  destruct Hs as [-> | ->]; [|rewrite last_last in Hlast; congruence].
  assert (Hm : re_match ucd email_pattern
                 ((a ++ ch "@" :: b ++ ch "." :: c) ++ t) = true).
  { apply re_match_email. exists a, b, (c ++ t).
    split; [exact Ha|]. split; [exact Hb|]. split.
    { intros E. apply app_eq_nil in E as [E _]. auto. }
    split; [exact Halla|]. split; [exact Hallb|]. split.
    { rewrite forallb_app. unfold char in *. rewrite Hallc, Ht. reflexivity. }
    left. rewrite <- !app_assoc. simpl. rewrite <- !app_assoc. reflexivity. }
  rewrite validate_email_eq. unfold str, char in *. rewrite Hm. reflexivity.
Qed.

Lemma accepted_email_extends_witness :
  validate_email ascii_only None (lit "john@example.com" ++ lit "..-") []
  = (Ok (lit "john@example.com" ++ lit "..-"), []).
Proof.
  apply (@accepted_email_extends_with_tld_characters ascii_only
           (lit "john@example.com") [] (lit "john@example.com") (lit "..-")).
  - reflexivity.
  - discriminate.
  - reflexivity.
Defined.
